(** * SetpointPosition plugin (mavros, [setpoint_position.cpp])

    A shallow embedding of the plugin that forwards a desired pose to the
    flight controller: the frame-dependent choice of transforms in
    [send_position_target], the two pose sources selected in [initialize],
    and the frame-selection service [set_mav_frame_cb]. *)

From Stdlib Require Import ZArith NArith Lia List.
From Stdlib Require Import Floats.PrimFloat Numbers.Cyclic.Int63.Uint63.
From stdpp Require Import gmap strings pretty.
Import ListNotations.

(** ** Geometry carried by the plugin

    [Eigen::Vector3d] and [Eigen::Quaterniond] hold C++ [double]s, which are
    IEEE binary64 values: the primitive floats. *)

Record Vector3d := { vx : float; vy : float; vz : float }.

Record Quaterniond := { qw : float; qx : float; qy : float; qz : float }.

(** [Eigen::Vector3d::Zero()]. *)
Definition Vector3d_Zero : Vector3d :=
  {| vx := 0%float; vy := 0%float; vz := 0%float |}.

(** The [Eigen::Affine3d] the callbacks build from a message.  The plugin
    only ever reads [tr.translation()] and [Eigen::Quaterniond(tr.rotation())],
    so the transform is kept as that pair. *)
Record Affine3d := { translation : Vector3d; rotation : Quaterniond }.

(** [ros::Time]: seconds and nanoseconds, both unsigned. [toNSec] is the
    64-bit count [sec * 1e9 + nsec]. *)
Record Time := { sec : N; nsec : N }.

Definition toNSec (t : Time) : N :=
  ((sec t * 1000000000 + nsec t) mod 2 ^ 64)%N.

(** ** The protocol's frame enumeration

    [MAV_FRAME] is an enumeration over an unsigned integer; [static_cast]
    from a request installs any id, listed or not, so a frame is kept as
    its id.  The enumerators used by the plugin carry their MAVLink ids. *)
Module MAV_FRAME.
Definition t := N.
Definition LOCAL_NED : t := 1%N.
Definition LOCAL_ENU : t := 4%N.
Definition BODY_NED : t := 8%N.
Definition BODY_OFFSET_NED : t := 9%N.
Definition eqb (a b : t) : bool := N.eqb a b.
End MAV_FRAME.

(** ** Frame transforms ([ftf] namespace) *)
Module ftf.

(** Modelled from the spec: [ftf::transform_frame_enu_ned], declared in
    the library's frame_tf header and not in the plugin's file.  "Given
    input (east, north, up), output is (north, east, -up)." *)
Definition transform_frame_enu_ned (v : Vector3d) : Vector3d :=
  {| vx := vy v; vy := vx v; vz := (- vz v)%float |}.

(** Modelled from the spec: [ftf::transform_frame_baselink_aircraft], from
    the same header.  The body-axis remap "forward-left-up to
    forward-right-down" keeps the forward axis and reverses the other two. *)
Definition transform_frame_baselink_aircraft (v : Vector3d) : Vector3d :=
  {| vx := vx v; vy := (- vy v)%float; vz := (- vz v)%float |}.

(** The orientation helpers and the yaw projection come from the same
    header.  The plugin is verified for every implementation of them. *)
Class Orientation := {
  transform_orientation_enu_ned : Quaterniond -> Quaterniond;
  transform_orientation_baselink_aircraft : Quaterniond -> Quaterniond;
  quaternion_get_yaw : Quaterniond -> float
}.

End ftf.

(** ** The outbound command *)

(** The command that leaves the plugin, with the fields of the arguments
    [send_position_target] hands to [set_position_target_local_ned], in
    order.  [time_ms] is an unsigned 32-bit field. *)
Record SetpointCommand := {
  time_ms : N;
  frame : N;
  ignore_mask : N;
  position : Vector3d;
  velocity : Vector3d;
  acceleration : Vector3d;
  yaw : float;
  yaw_rate : float
}.

(** Modelled from the spec: [set_position_target_local_ned], a member of the
    setpoint mixin header and not of the plugin's file.  It assembles the
    command from its arguments and hands it to the transport; the command
    is the observable result.  "time_ms (unsigned 32-bit, truncated
    milliseconds)": the 64-bit millisecond count it is given is reduced
    modulo 2^32 on the way into the field. *)
Definition set_position_target_local_ned
    (time_boot_ms : N) (coordinate_frame : N) (type_mask : N)
    (p v af : Vector3d) (yaw_ yaw_rate_ : float) : SetpointCommand :=
  {| time_ms := (time_boot_ms mod 2 ^ 32)%N; frame := coordinate_frame;
     ignore_mask := type_mask; position := p; velocity := v;
     acceleration := af; yaw := yaw_; yaw_rate := yaw_rate_ |}.

(** ** Parameter server seen through [sp_nh] *)

Inductive XmlRpcValue :=
| TypeBoolean (b : bool)
| TypeInt (i : Z)
| TypeDouble (d : float)
| TypeString (s : string).

Definition int_to_double (i : Z) : float :=
  match i with
  | Z0 => 0%float
  | Zpos p => of_uint63 (Uint63.of_pos p)
  | Zneg p => (- of_uint63 (Uint63.of_pos p))%float
  end.

Module NodeHandle.
Definition t := gmap string XmlRpcValue.

Definition getParam_string (nh : t) (key : string) : option string :=
  match nh !! key with
  | Some (TypeString s) => Some s
  | _ => None
  end.

Definition param_bool (nh : t) (key : string) (default : bool) : bool :=
  match nh !! key with
  | Some (TypeBoolean b) => b
  | _ => default
  end.

Definition param_string (nh : t) (key : string) (default : string) : string :=
  match getParam_string nh key with
  | Some s => s
  | None => default
  end.

Definition param_double (nh : t) (key : string) (default : float) : float :=
  match nh !! key with
  | Some (TypeDouble d) => d
  | Some (TypeInt i) => int_to_double i
  | _ => default
  end.

(** [setParam] is a remote call that returns nothing: a write the server
    did not take goes unnoticed.  [delivered] tells whether it took it. *)
Definition setParam (delivered : bool) (nh : t) (key value : string) : t :=
  if delivered then <[key := TypeString value]> nh else nh.
End NodeHandle.

(** ** Enum/string helpers ([utils] namespace)

    [utils::to_string] and [utils::mav_frame_from_str] live in the library's
    string tables, outside the plugin's file; the plugin is verified for
    every implementation of them. *)
Module utils.
Class EnumStrings := {
  to_string : MAV_FRAME.t -> string;
  mav_frame_from_str : string -> MAV_FRAME.t
}.

(** [utils::enum_value]: the underlying id of an enumerator. *)
Definition enum_value (f : MAV_FRAME.t) : N := f.
End utils.

(** ** Plugin state

    The fields of the class, and [tf_thd_name] of the listener mixin it
    inherits: the name of the transform listener once [tf2_start] ran. *)

Record Subscriber := { topic : string; queue_size : N }.

Record SetpointPositionPlugin := {
  sp_nh : NodeHandle.t;
  setpoint_sub : option Subscriber;
  mav_frame_srv : option string;
  tf_frame_id : string;
  tf_child_frame_id : string;
  tf_listen : bool;
  tf_rate : float;
  mav_frame : MAV_FRAME.t;
  tf_thd_name : option string
}.

(** The constructor: [tf_rate(50.0)], [tf_listen(false)]; [mav_frame] has no
    initializer and starts with whatever [indeterminate] value it holds. *)
Definition SetpointPositionPlugin_new
    (params : NodeHandle.t) (indeterminate : MAV_FRAME.t)
  : SetpointPositionPlugin :=
  {| sp_nh := params; setpoint_sub := None; mav_frame_srv := None;
     tf_frame_id := ""; tf_child_frame_id := "";
     tf_listen := false; tf_rate := 50%float;
     mav_frame := indeterminate; tf_thd_name := None |}.

(** ** Messages *)

Record Header := { stamp : Time }.

Record Transform := { tf_translation : Vector3d; tf_rotation : Quaterniond }.

Record TransformStamped := { ts_header : Header; transform : Transform }.

Record Pose := { pose_position : Vector3d; pose_orientation : Quaterniond }.

Record PoseStamped := { ps_header : Header; pose : Pose }.

Record SetMavFrameRequest := { req_mav_frame : N }.

Record SetMavFrameResponse := { success : bool }.

(** [tf::transformMsgToEigen] and [tf::poseMsgToEigen]. *)
Definition transformMsgToEigen (m : Transform) : Affine3d :=
  {| translation := tf_translation m; rotation := tf_rotation m |}.

Definition poseMsgToEigen (m : Pose) : Affine3d :=
  {| translation := pose_position m; rotation := pose_orientation m |}.

(** ** The plugin's operations *)

(** [(1 << 11) | (7 << 6) | (7 << 3)], stored in a [uint16_t]. *)
Definition ignore_all_except_xyz_y : N :=
  (N.lor (N.lor (N.shiftl 1 11) (N.shiftl 7 6)) (N.shiftl 7 3) mod 2 ^ 16)%N.

Section Plugin.
Context {orientation : ftf.Orientation} {strings : utils.EnumStrings}.

Definition send_position_target
    (self : SetpointPositionPlugin) (stamp_ : Time) (tr : Affine3d)
  : SetpointCommand :=
  let p :=
    if MAV_FRAME.eqb (mav_frame self) MAV_FRAME.BODY_NED
       || MAV_FRAME.eqb (mav_frame self) MAV_FRAME.BODY_OFFSET_NED
    then ftf.transform_frame_baselink_aircraft (translation tr)
    else ftf.transform_frame_enu_ned (translation tr) in
  let q :=
    if MAV_FRAME.eqb (mav_frame self) MAV_FRAME.BODY_NED
       || MAV_FRAME.eqb (mav_frame self) MAV_FRAME.BODY_OFFSET_NED
    then ftf.transform_orientation_baselink_aircraft (rotation tr)
    else ftf.transform_orientation_enu_ned
           (ftf.transform_orientation_baselink_aircraft (rotation tr)) in
  set_position_target_local_ned
    (toNSec stamp_ / 1000000)%N
    (utils.enum_value (mav_frame self))
    ignore_all_except_xyz_y
    p
    Vector3d_Zero
    Vector3d_Zero
    (ftf.quaternion_get_yaw q) 0%float.

Definition transform_cb
    (self : SetpointPositionPlugin) (m : TransformStamped) : SetpointCommand :=
  let tr := transformMsgToEigen (transform m) in
  send_position_target self (stamp (ts_header m)) tr.

Definition setpoint_cb
    (self : SetpointPositionPlugin) (req : PoseStamped) : SetpointCommand :=
  let tr := poseMsgToEigen (pose req) in
  send_position_target self (stamp (ps_header req)) tr.

Definition set_mav_frame_cb
    (self : SetpointPositionPlugin) (req : SetMavFrameRequest)
    (delivered : bool)
  : SetpointPositionPlugin * SetMavFrameResponse * bool :=
  let mav_frame' : MAV_FRAME.t := req_mav_frame req in
  let mav_frame_str := utils.to_string mav_frame' in
  let sp_nh' :=
    NodeHandle.setParam delivered (sp_nh self) "mav_frame" mav_frame_str in
  ({| sp_nh := sp_nh'; setpoint_sub := setpoint_sub self;
      mav_frame_srv := mav_frame_srv self;
      tf_frame_id := tf_frame_id self;
      tf_child_frame_id := tf_child_frame_id self;
      tf_listen := tf_listen self; tf_rate := tf_rate self;
      mav_frame := mav_frame'; tf_thd_name := tf_thd_name self |},
   {| success := true |}, true).

(** Modelled from the spec: [tf2_start], a member of the listener mixin
    and not of the plugin's file: it starts the transform stream listener
    under the given name. *)
Definition tf2_start (thd_name : string) : option string := Some thd_name.

Definition initialize (self : SetpointPositionPlugin) : SetpointPositionPlugin :=
  let nh := sp_nh self in
  let tf_listen' := NodeHandle.param_bool nh "tf/listen" false in
  let tf_frame_id' := NodeHandle.param_string nh "tf/frame_id" "map" in
  let tf_child_frame_id' :=
    NodeHandle.param_string nh "tf/child_frame_id" "target_position" in
  let tf_rate' := NodeHandle.param_double nh "tf/rate_limit" 50%float in
  let tf_thd_name' :=
    if tf_listen' then tf2_start "PositionSpTF" else tf_thd_name self in
  let setpoint_sub' :=
    if tf_listen' then setpoint_sub self
    else Some {| topic := "local"; queue_size := 10 |} in
  let mav_frame' :=
    match NodeHandle.getParam_string nh "mav_frame" with
    | None => MAV_FRAME.LOCAL_NED
    | Some mav_frame_str => utils.mav_frame_from_str mav_frame_str
    end in
  {| sp_nh := nh; setpoint_sub := setpoint_sub';
     mav_frame_srv := Some "mav_frame"%string;
     tf_frame_id := tf_frame_id'; tf_child_frame_id := tf_child_frame_id';
     tf_listen := tf_listen'; tf_rate := tf_rate';
     mav_frame := mav_frame'; tf_thd_name := tf_thd_name' |}.

End Plugin.

(** ** Delivery of messages by the host

    The host calls a callback only where [initialize] registered it: the
    listener for transform updates, the subscription for pose messages, the
    advertised service for frame requests.  A delivery returns the plugin
    and the commands it emitted. *)

Inductive Event :=
| TransformUpdate (m : TransformStamped)
| PoseMessage (m : PoseStamped)
| FrameRequest (req : SetMavFrameRequest) (delivered : bool).

Definition listener_active (self : SetpointPositionPlugin) : bool :=
  match tf_thd_name self with Some _ => true | None => false end.

Definition subscription_active (self : SetpointPositionPlugin) : bool :=
  match setpoint_sub self with Some _ => true | None => false end.

Section Host.
Context {orientation : ftf.Orientation} {strings : utils.EnumStrings}.

Definition dispatch (self : SetpointPositionPlugin) (ev : Event)
  : SetpointPositionPlugin * list SetpointCommand :=
  match ev with
  | TransformUpdate m =>
      if listener_active self then (self, [transform_cb self m]) else (self, [])
  | PoseMessage m =>
      if subscription_active self then (self, [setpoint_cb self m]) else (self, [])
  | FrameRequest req delivered =>
      match mav_frame_srv self with
      | Some _ => (fst (fst (set_mav_frame_cb self req delivered)), [])
      | None => (self, [])
      end
  end.

Fixpoint run (self : SetpointPositionPlugin) (evs : list Event)
  : SetpointPositionPlugin * list SetpointCommand :=
  match evs with
  | [] => (self, [])
  | ev :: evs' =>
      let '(self', out) := dispatch self ev in
      let '(self'', out') := run self' evs' in
      (self'', out ++ out')
  end.

End Host.

(** ** The transform stream listener *)
Module TF2ListenerMixin.

(** Modelled from the spec: the rate limiter of the transform stream
    listener, a member of the listener mixin header and not of the plugin's
    file.  "If an update arrives sooner than the minimum inter-update
    interval since the last processed update, it is silently dropped (no
    buffering, no catch-up) and the rate limiter's clock is not advanced by
    the dropped update.  Each accepted update is immediately forwarded."
    Arrival times are in seconds; the limiter's clock is the arrival time of
    the last processed update, if any. *)
Record t := { last_processed : option float }.

(** Modelled from the spec: the limiter of a listener that has processed no
    update yet. *)
Definition start : t := {| last_processed := None |}.

(** Modelled from the spec: "the minimum inter-update interval" of a limit
    of [rate] updates per second (20 ms at 50 Hz). *)
Definition min_interval (rate : float) : float := (1 / rate)%float.

(** Modelled from the spec: an update "arrives sooner than the minimum
    inter-update interval since the last processed update". *)
Definition too_soon (rate : float) (self : t) (now : float) : bool :=
  match last_processed self with
  | None => false
  | Some t0 => (now - t0 <? min_interval rate)%float
  end.

(** Modelled from the spec: one arriving update is dropped, the clock left
    alone, or forwarded to the callback at once, the clock set to its
    arrival. *)
Definition on_update {A B : Type} (rate : float) (cb : A -> B)
    (self : t) (now : float) (m : A) : t * list B :=
  if too_soon rate self now then (self, [])
  else ({| last_processed := Some now |}, [cb m]).

(** Modelled from the spec: the listener over a stream of arrivals; the
    callback results are collected in order. *)
Fixpoint listen {A B : Type} (rate : float) (cb : A -> B)
    (self : t) (updates : list (float * A)) : t * list B :=
  match updates with
  | [] => (self, [])
  | (now, m) :: rest =>
      let '(self', out) := on_update rate cb self now m in
      let '(self'', out') := listen rate cb self' rest in
      (self'', out ++ out')
  end.

End TF2ListenerMixin.

(** Modelled from the spec: the transform stream as the plugin sees it.
    [initialize] starts the listener only under [if (tf_listen)]; where it
    did, the listener runs at the plugin's [tf_rate] and calls
    [transform_cb]; where it did not, no update reaches the plugin. *)
Definition tf2_stream {orientation : ftf.Orientation}
    (self : SetpointPositionPlugin) (updates : list (float * TransformStamped))
  : TF2ListenerMixin.t * list SetpointCommand :=
  if listener_active self
  then TF2ListenerMixin.listen (tf_rate self) (transform_cb self)
         TF2ListenerMixin.start updates
  else (TF2ListenerMixin.start, []).

(** ** Concrete helpers for running the plugin

    An implementation of the orientation helpers by quaternion products:
    the body remap is the product with the half turn about the forward
    axis, the world rotation the product with the quarter-turn-and-flip
    quaternion.  The yaw projection keeps the sine term [2 (w z + x y)] of
    the heading, the arctangent not being an operation on binary64 values
    here. *)
Module Sample.

Definition qmul (a b : Quaterniond) : Quaterniond :=
  {| qw := (qw a * qw b - qx a * qx b - qy a * qy b - qz a * qz b)%float;
     qx := (qw a * qx b + qx a * qw b + qy a * qz b - qz a * qy b)%float;
     qy := (qw a * qy b - qx a * qz b + qy a * qw b + qz a * qx b)%float;
     qz := (qw a * qz b + qx a * qy b - qy a * qx b + qz a * qw b)%float |}.

Definition half_turn_forward : Quaterniond :=
  {| qw := 0%float; qx := 1%float; qy := 0%float; qz := 0%float |}.

Definition enu_ned_turn : Quaterniond :=
  {| qw := 0%float; qx := PrimFloat.sqrt (1 / 2)%float;
     qy := PrimFloat.sqrt (1 / 2)%float; qz := 0%float |}.

#[export] Instance orientation : ftf.Orientation := {|
  ftf.transform_orientation_enu_ned q := qmul enu_ned_turn q;
  ftf.transform_orientation_baselink_aircraft q := qmul q half_turn_forward;
  ftf.quaternion_get_yaw q := (2 * (qw q * qz q + qx q * qy q))%float
|}.

Definition frame_names : list (MAV_FRAME.t * string) :=
  [ (MAV_FRAME.LOCAL_NED, "LOCAL_NED"); (MAV_FRAME.LOCAL_ENU, "LOCAL_ENU");
    (MAV_FRAME.BODY_NED, "BODY_NED");
    (MAV_FRAME.BODY_OFFSET_NED, "BODY_OFFSET_NED") ]%string.

Fixpoint name_of (tbl : list (MAV_FRAME.t * string)) (f : MAV_FRAME.t) : string :=
  match tbl with
  | [] => pretty.pretty f
  | (g, s) :: tbl' => if MAV_FRAME.eqb f g then s else name_of tbl' f
  end.

Fixpoint frame_of (tbl : list (MAV_FRAME.t * string)) (s : string) : MAV_FRAME.t :=
  match tbl with
  | [] => MAV_FRAME.LOCAL_NED
  | (g, s') :: tbl' => if String.eqb s s' then g else frame_of tbl' s
  end.

#[export] Instance strings : utils.EnumStrings := {|
  utils.to_string := name_of frame_names;
  utils.mav_frame_from_str := frame_of frame_names
|}.

Definition identity_q : Quaterniond :=
  {| qw := 1%float; qx := 0%float; qy := 0%float; qz := 0%float |}.

Definition pose123 : Affine3d :=
  {| translation := {| vx := 1%float; vy := 2%float; vz := 3%float |};
     rotation := identity_q |}.

Definition plugin (params : NodeHandle.t) : SetpointPositionPlugin :=
  initialize (SetpointPositionPlugin_new params 0%N).

Definition at_frame (f : MAV_FRAME.t) : SetpointPositionPlugin :=
  fst (fst (set_mav_frame_cb (plugin ∅) {| req_mav_frame := f |} true)).

Definition update_at (s : N) : TransformStamped :=
  {| ts_header := {| stamp := {| sec := s; nsec := 0 |} |};
     transform := {| tf_translation := translation pose123;
                     tf_rotation := rotation pose123 |} |}.

End Sample.

(** * Properties *)

(** ** The frame test of the encoder *)

Lemma body_test_true (f : MAV_FRAME.t) :
  f = MAV_FRAME.BODY_NED \/ f = MAV_FRAME.BODY_OFFSET_NED ->
  MAV_FRAME.eqb f MAV_FRAME.BODY_NED
    || MAV_FRAME.eqb f MAV_FRAME.BODY_OFFSET_NED = true.
Proof.
  intros [-> | ->]; reflexivity.
Qed.

Lemma body_test_false (f : MAV_FRAME.t) :
  f <> MAV_FRAME.BODY_NED -> f <> MAV_FRAME.BODY_OFFSET_NED ->
  MAV_FRAME.eqb f MAV_FRAME.BODY_NED
    || MAV_FRAME.eqb f MAV_FRAME.BODY_OFFSET_NED = false.
Proof.
  intros H8 H9. unfold MAV_FRAME.eqb.
  apply N.eqb_neq in H8. apply N.eqb_neq in H9.
  rewrite H8, H9. reflexivity.
Qed.

Section Encoder.
Context {orientation : ftf.Orientation}.

(** The command of the body branch, spelled out. *)
Lemma send_position_target_body self stamp_ tr :
  mav_frame self = MAV_FRAME.BODY_NED
    \/ mav_frame self = MAV_FRAME.BODY_OFFSET_NED ->
  send_position_target self stamp_ tr =
    set_position_target_local_ned
      (toNSec stamp_ / 1000000)%N (mav_frame self) ignore_all_except_xyz_y
      (ftf.transform_frame_baselink_aircraft (translation tr))
      Vector3d_Zero Vector3d_Zero
      (ftf.quaternion_get_yaw
         (ftf.transform_orientation_baselink_aircraft (rotation tr)))
      0%float.
Proof.
  intros Hb. unfold send_position_target.
  rewrite (body_test_true _ Hb). reflexivity.
Qed.

(** The command of the other branch, spelled out. *)
Lemma send_position_target_world self stamp_ tr :
  mav_frame self <> MAV_FRAME.BODY_NED ->
  mav_frame self <> MAV_FRAME.BODY_OFFSET_NED ->
  send_position_target self stamp_ tr =
    set_position_target_local_ned
      (toNSec stamp_ / 1000000)%N (mav_frame self) ignore_all_except_xyz_y
      (ftf.transform_frame_enu_ned (translation tr))
      Vector3d_Zero Vector3d_Zero
      (ftf.quaternion_get_yaw
         (ftf.transform_orientation_enu_ned
            (ftf.transform_orientation_baselink_aircraft (rotation tr))))
      0%float.
Proof.
  intros H8 H9. unfold send_position_target.
  rewrite (body_test_false _ H8 H9). reflexivity.
Qed.

(** The fields that no branch touches. *)
Lemma send_position_target_fixed self stamp_ tr :
  time_ms (send_position_target self stamp_ tr)
  = ((toNSec stamp_ / 1000000) mod 2 ^ 32)%N
  /\ frame (send_position_target self stamp_ tr) = mav_frame self
  /\ ignore_mask (send_position_target self stamp_ tr) = ignore_all_except_xyz_y
  /\ velocity (send_position_target self stamp_ tr) = Vector3d_Zero
  /\ acceleration (send_position_target self stamp_ tr) = Vector3d_Zero
  /\ yaw_rate (send_position_target self stamp_ tr) = 0%float.
Proof.
  unfold send_position_target, set_position_target_local_ned. cbn.
  repeat split.
Qed.

(** C1. For every pose encoded while the active frame is neither BODY_NED
    nor BODY_OFFSET_NED, the position of the command is the input
    translation with its first two components exchanged and the third
    negated: (east, north, up) becomes (north, east, -up).  In particular
    the translation (1, 2, 3) under LOCAL_NED is sent as (2, 1, -3). *)
Theorem world_fixed_translation self stamp_ tr :
  mav_frame self <> MAV_FRAME.BODY_NED ->
  mav_frame self <> MAV_FRAME.BODY_OFFSET_NED ->
  position (send_position_target self stamp_ tr) =
    {| vx := vy (translation tr); vy := vx (translation tr);
       vz := (- vz (translation tr))%float |}
  /\ (mav_frame self = MAV_FRAME.LOCAL_NED ->
      translation tr = {| vx := 1%float; vy := 2%float; vz := 3%float |} ->
      position (send_position_target self stamp_ tr) =
        {| vx := 2%float; vy := 1%float; vz := (-3)%float |}).
Proof.
  intros H8 H9.
  rewrite (send_position_target_world _ _ _ H8 H9). cbn.
  split; [reflexivity |].
  intros _ ->. reflexivity.
Qed.

(** C2. For every pose encoded while the active frame is BODY_NED or
    BODY_OFFSET_NED, the position is the body remap of the input translation
    (forward kept, left and up reversed) and the yaw is projected from the
    body remap of the input orientation.  The world rotation is not applied:
    the command is the same whatever the ENU-to-NED orientation helper
    computes, and the position is not exchanged between its first two axes. *)
Theorem body_relative_only_body_remap self stamp_ tr :
  mav_frame self = MAV_FRAME.BODY_NED
    \/ mav_frame self = MAV_FRAME.BODY_OFFSET_NED ->
  position (send_position_target self stamp_ tr) =
    {| vx := vx (translation tr); vy := (- vy (translation tr))%float;
       vz := (- vz (translation tr))%float |}
  /\ position (send_position_target self stamp_ tr) =
       ftf.transform_frame_baselink_aircraft (translation tr)
  /\ yaw (send_position_target self stamp_ tr) =
       ftf.quaternion_get_yaw
         (ftf.transform_orientation_baselink_aircraft (rotation tr))
  /\ (forall world : Quaterniond -> Quaterniond,
        @send_position_target
          {| ftf.transform_orientation_enu_ned := world;
             ftf.transform_orientation_baselink_aircraft :=
               ftf.transform_orientation_baselink_aircraft;
             ftf.quaternion_get_yaw := ftf.quaternion_get_yaw |}
          self stamp_ tr
        = send_position_target self stamp_ tr).
Proof.
  intros Hb.
  rewrite (send_position_target_body _ _ _ Hb). cbn.
  repeat split.
  intros world.
  unfold send_position_target. rewrite (body_test_true _ Hb). reflexivity.
Qed.

(** C3. For every pose encoded while the active frame is neither BODY_NED
    nor BODY_OFFSET_NED, the orientation is first body-remapped, the result
    is then rotated from ENU to NED, and the yaw of the command is the yaw
    projection of that final quaternion.  The command keeps nothing else of
    the orientation: two poses with the same translation whose final
    quaternions project to the same yaw give the same command. *)
Theorem world_fixed_orientation_yaw self stamp_ tr :
  mav_frame self <> MAV_FRAME.BODY_NED ->
  mav_frame self <> MAV_FRAME.BODY_OFFSET_NED ->
  yaw (send_position_target self stamp_ tr) =
    ftf.quaternion_get_yaw
      (ftf.transform_orientation_enu_ned
         (ftf.transform_orientation_baselink_aircraft (rotation tr)))
  /\ (forall tr' : Affine3d,
        translation tr' = translation tr ->
        ftf.quaternion_get_yaw
          (ftf.transform_orientation_enu_ned
             (ftf.transform_orientation_baselink_aircraft (rotation tr')))
        = ftf.quaternion_get_yaw
            (ftf.transform_orientation_enu_ned
               (ftf.transform_orientation_baselink_aircraft (rotation tr))) ->
        send_position_target self stamp_ tr'
        = send_position_target self stamp_ tr).
Proof.
  intros H8 H9. split.
  - rewrite (send_position_target_world _ _ _ H8 H9). reflexivity.
  - intros tr' Ht Hy.
    rewrite !(send_position_target_world _ _ _ H8 H9).
    rewrite Ht, Hy. reflexivity.
Qed.

End Encoder.

Lemma world_fixed_translation_witness :
  (Sample.at_frame MAV_FRAME.LOCAL_NED).(mav_frame) <> MAV_FRAME.BODY_NED
  /\ (Sample.at_frame MAV_FRAME.LOCAL_NED).(mav_frame)
       <> MAV_FRAME.BODY_OFFSET_NED
  /\ position (@send_position_target Sample.orientation
                 (Sample.at_frame MAV_FRAME.LOCAL_NED)
                 {| sec := 1; nsec := 500000050 |} Sample.pose123) =
       {| vx := 2%float; vy := 1%float; vz := (-3)%float |}.
Proof.
  assert (H8 : (Sample.at_frame MAV_FRAME.LOCAL_NED).(mav_frame)
               <> MAV_FRAME.BODY_NED) by (vm_compute; discriminate).
  assert (H9 : (Sample.at_frame MAV_FRAME.LOCAL_NED).(mav_frame)
               <> MAV_FRAME.BODY_OFFSET_NED) by (vm_compute; discriminate).
  split; [exact H8 | split; [exact H9 |]].
  refine (proj2 (@world_fixed_translation Sample.orientation
                   (Sample.at_frame MAV_FRAME.LOCAL_NED)
                   {| sec := 1; nsec := 500000050 |} Sample.pose123 H8 H9) _ _);
    reflexivity.
Defined.

Lemma body_relative_only_body_remap_witness :
  (Sample.at_frame MAV_FRAME.BODY_NED).(mav_frame) = MAV_FRAME.BODY_NED
  /\ position (@send_position_target Sample.orientation
                 (Sample.at_frame MAV_FRAME.BODY_NED)
                 {| sec := 1; nsec := 500000050 |} Sample.pose123) =
       {| vx := 1%float; vy := (-2)%float; vz := (-3)%float |}.
Proof.
  split; [reflexivity |].
  refine (proj1 (@body_relative_only_body_remap Sample.orientation
                   (Sample.at_frame MAV_FRAME.BODY_NED)
                   {| sec := 1; nsec := 500000050 |} Sample.pose123 _)).
  left. reflexivity.
Defined.

Lemma world_fixed_orientation_yaw_witness :
  (Sample.at_frame MAV_FRAME.LOCAL_ENU).(mav_frame) <> MAV_FRAME.BODY_NED
  /\ (Sample.at_frame MAV_FRAME.LOCAL_ENU).(mav_frame)
       <> MAV_FRAME.BODY_OFFSET_NED
  /\ yaw (@send_position_target Sample.orientation
            (Sample.at_frame MAV_FRAME.LOCAL_ENU)
            {| sec := 1; nsec := 500000050 |} Sample.pose123) =
       @ftf.quaternion_get_yaw Sample.orientation
         (Sample.qmul Sample.enu_ned_turn
            (Sample.qmul Sample.identity_q Sample.half_turn_forward)).
Proof.
  assert (H8 : (Sample.at_frame MAV_FRAME.LOCAL_ENU).(mav_frame)
               <> MAV_FRAME.BODY_NED) by (vm_compute; discriminate).
  assert (H9 : (Sample.at_frame MAV_FRAME.LOCAL_ENU).(mav_frame)
               <> MAV_FRAME.BODY_OFFSET_NED) by (vm_compute; discriminate).
  split; [exact H8 | split; [exact H9 |]].
  exact (proj1 (@world_fixed_orientation_yaw Sample.orientation
                  (Sample.at_frame MAV_FRAME.LOCAL_ENU)
                  {| sec := 1; nsec := 500000050 |} Sample.pose123 H8 H9)).
Defined.

(** ** The ignore mask and the fixed fields *)

Lemma ignore_mask_value : ignore_all_except_xyz_y = 2552%N.
Proof. reflexivity. Qed.

(** The set bits of the mask are exactly 3 to 8 and 11. *)
Lemma ignore_mask_bits (n : N) :
  N.testbit ignore_all_except_xyz_y n
  = existsb (N.eqb n) [3; 4; 5; 6; 7; 8; 11]%N.
Proof.
  rewrite ignore_mask_value.
  destruct (N.lt_ge_cases n 12) as [Hlt | Hge].
  - rewrite <- (N2Nat.id n).
    assert (Hk : (N.to_nat n < 12)%nat) by lia.
    revert Hk. generalize (N.to_nat n) as k. intros k Hk.
    do 12 (destruct k as [| k]; [reflexivity |]).
    lia.
  - rewrite N.bits_above_log2 by (change (N.log2 2552) with 11%N; lia).
    cbn [existsb].
    repeat (rewrite (proj2 (N.eqb_neq n _)) by lia).
    reflexivity.
Qed.

Section Fields.
Context {orientation : ftf.Orientation}.

(** C4. Every emitted command, whatever the pose and the active frame,
    carries the same 16-bit ignore mask, whose set bits are 11, 6 to 8 and
    3 to 5 (yaw rate, acceleration and velocity ignored) while bits 0 to 2
    and 10 are clear (position and yaw used); its velocity and acceleration
    are the zero vector and its yaw rate is zero. *)
Theorem ignore_mask_constant self stamp_ tr :
  ignore_mask (send_position_target self stamp_ tr) = 2552%N
  /\ (ignore_mask (send_position_target self stamp_ tr) < 2 ^ 16)%N
  /\ (forall n : N,
        N.testbit (ignore_mask (send_position_target self stamp_ tr)) n
        = existsb (N.eqb n) [3; 4; 5; 6; 7; 8; 11]%N)
  /\ Forall (fun n => N.testbit
                        (ignore_mask (send_position_target self stamp_ tr)) n
                      = true) [11; 8; 7; 6; 5; 4; 3]%N
  /\ Forall (fun n => N.testbit
                        (ignore_mask (send_position_target self stamp_ tr)) n
                      = false) [0; 1; 2; 10]%N
  /\ velocity (send_position_target self stamp_ tr)
     = {| vx := 0%float; vy := 0%float; vz := 0%float |}
  /\ acceleration (send_position_target self stamp_ tr)
     = {| vx := 0%float; vy := 0%float; vz := 0%float |}
  /\ yaw_rate (send_position_target self stamp_ tr) = 0%float.
Proof.
  destruct (send_position_target_fixed self stamp_ tr)
    as (_ & _ & Hm & Hv & Ha & Hr).
  rewrite Hm, Hv, Ha, Hr.
  split; [apply ignore_mask_value |].
  split; [rewrite ignore_mask_value; reflexivity |].
  split; [apply ignore_mask_bits |].
  split; [repeat constructor |].
  split; [repeat constructor |].
  repeat split.
Qed.

(** C6. The time of every command is the pose timestamp in nanoseconds
    divided by one million with the remainder dropped, never rounded, and
    reduced modulo 2^32 into the 32-bit field.  For a timestamp below 2^32
    milliseconds it is the millisecond count itself, the largest one not
    after the timestamp.  The timestamp 1,500,000,050 ns is sent as
    1500 ms. *)
Theorem timestamp_truncated self stamp_ tr :
  time_ms (send_position_target self stamp_ tr)
  = ((toNSec stamp_ / 1000000) mod 2 ^ 32)%N
  /\ (time_ms (send_position_target self stamp_ tr) < 2 ^ 32)%N
  /\ ((toNSec stamp_ < 2 ^ 32 * 1000000)%N ->
      time_ms (send_position_target self stamp_ tr)
      = (toNSec stamp_ / 1000000)%N
      /\ (time_ms (send_position_target self stamp_ tr) * 1000000
            <= toNSec stamp_
          < (time_ms (send_position_target self stamp_ tr) + 1) * 1000000)%N)
  /\ toNSec {| sec := 1; nsec := 500000050 |} = 1500000050%N
  /\ time_ms (send_position_target self {| sec := 1; nsec := 500000050 |} tr)
     = 1500%N
  /\ time_ms (send_position_target self {| sec := 1; nsec := 999999999 |} tr)
     = 1999%N.
Proof.
  destruct (send_position_target_fixed self stamp_ tr) as (Ht & _).
  rewrite Ht.
  split; [reflexivity |].
  split; [apply N.mod_lt; discriminate |].
  split.
  - intros Hfit.
    assert (Hq : (toNSec stamp_ / 1000000 < 2 ^ 32)%N).
    { apply N.Div0.div_lt_upper_bound. lia. }
    rewrite (N.mod_small _ _ Hq).
    split; [reflexivity |].
    generalize (toNSec stamp_). intros ns.
    pose proof (N.div_mod ns 1000000 ltac:(lia)) as Hdm.
    pose proof (N.mod_lt ns 1000000 ltac:(lia)) as Hlt.
    set (q := (ns / 1000000)%N) in *. set (r := (ns mod 1000000)%N) in *.
    clearbody q r. lia.
  - repeat split.
Qed.

End Fields.

Lemma timestamp_truncated_witness :
  (toNSec {| sec := 1; nsec := 500000050 |} < 2 ^ 32 * 1000000)%N
  /\ time_ms (@send_position_target Sample.orientation (Sample.plugin ∅)
                {| sec := 1; nsec := 500000050 |} Sample.pose123)
     = (toNSec {| sec := 1; nsec := 500000050 |} / 1000000)%N.
Proof.
  assert (Hfit : (toNSec {| sec := 1; nsec := 500000050 |}
                  < 2 ^ 32 * 1000000)%N) by reflexivity.
  split; [exact Hfit |].
  exact (proj1 (proj1 (proj2 (proj2
    (@timestamp_truncated Sample.orientation (Sample.plugin ∅)
       {| sec := 1; nsec := 500000050 |} Sample.pose123))) Hfit)).
Defined.

(** The time of a command is not the millisecond count of every stamp: the
    stamp of 1,700,000,000 s has 1,700,000,000,000 ms and is sent as
    3,487,918,080. *)
Lemma timestamp_truncated_counterexample :
  (toNSec {| sec := 1700000000; nsec := 0 |} / 1000000 = 1700000000000)%N
  /\ time_ms (@send_position_target Sample.orientation (Sample.plugin ∅)
                {| sec := 1700000000; nsec := 0 |} Sample.pose123)
     = 3487918080%N
  /\ time_ms (@send_position_target Sample.orientation (Sample.plugin ∅)
                {| sec := 1700000000; nsec := 0 |} Sample.pose123)
     <> (toNSec {| sec := 1700000000; nsec := 0 |} / 1000000)%N.
Proof.
  split; [reflexivity |].
  split; [reflexivity |].
  vm_compute. discriminate.
Qed.

(** ** The frame-selection service *)

Section Service.
Context {orientation : ftf.Orientation} {strings : utils.EnumStrings}.

(** The encoder only looks at the [mav_frame] field of the plugin. *)
Lemma send_position_target_reads_mav_frame self self' stamp_ tr :
  mav_frame self' = mav_frame self ->
  send_position_target self' stamp_ tr = send_position_target self stamp_ tr.
Proof.
  intros Hf. unfold send_position_target. rewrite Hf. reflexivity.
Qed.

Lemma set_mav_frame_cb_mav_frame self req delivered :
  mav_frame (fst (fst (set_mav_frame_cb self req delivered)))
  = req_mav_frame req.
Proof. reflexivity. Qed.

(** C5. For every request, whatever integer it carries, the handler makes
    that id the active frame, so that every later encode takes the branch of
    the new id; it writes the frame's name under the key "mav_frame" when
    the parameter server takes the write and keeps the new frame when it
    does not; and it answers success in every case, with no check of the id
    against the enumeration. *)
Theorem frame_request_always_succeeds self req delivered stamp_ tr :
  mav_frame (fst (fst (set_mav_frame_cb self req delivered)))
  = req_mav_frame req
  /\ success (snd (fst (set_mav_frame_cb self req delivered))) = true
  /\ snd (set_mav_frame_cb self req delivered) = true
  /\ sp_nh (fst (fst (set_mav_frame_cb self req delivered)))
     = (if delivered
        then <["mav_frame"%string :=
                 TypeString (utils.to_string (req_mav_frame req))]> (sp_nh self)
        else sp_nh self)
  /\ sp_nh (fst (fst (set_mav_frame_cb self req true))) !! "mav_frame"%string
     = Some (TypeString (utils.to_string (req_mav_frame req)))
  /\ (sp_nh (fst (fst (set_mav_frame_cb self req false))) = sp_nh self
      /\ mav_frame (fst (fst (set_mav_frame_cb self req false)))
         = req_mav_frame req)
  /\ frame (send_position_target
              (fst (fst (set_mav_frame_cb self req delivered))) stamp_ tr)
     = req_mav_frame req
  /\ position (send_position_target
                 (fst (fst (set_mav_frame_cb self req delivered))) stamp_ tr)
     = (if MAV_FRAME.eqb (req_mav_frame req) MAV_FRAME.BODY_NED
           || MAV_FRAME.eqb (req_mav_frame req) MAV_FRAME.BODY_OFFSET_NED
        then ftf.transform_frame_baselink_aircraft (translation tr)
        else ftf.transform_frame_enu_ned (translation tr))
  /\ yaw (send_position_target
            (fst (fst (set_mav_frame_cb self req delivered))) stamp_ tr)
     = ftf.quaternion_get_yaw
         (if MAV_FRAME.eqb (req_mav_frame req) MAV_FRAME.BODY_NED
             || MAV_FRAME.eqb (req_mav_frame req) MAV_FRAME.BODY_OFFSET_NED
          then ftf.transform_orientation_baselink_aircraft (rotation tr)
          else ftf.transform_orientation_enu_ned
                 (ftf.transform_orientation_baselink_aircraft (rotation tr))).
Proof.
  split; [reflexivity |].
  split; [reflexivity |].
  split; [reflexivity |].
  split; [destruct delivered; reflexivity |].
  split; [cbn; apply lookup_insert_eq |].
  split; [split; reflexivity |].
  split; [reflexivity |].
  split; reflexivity.
Qed.

(** C10. For every frame id other than BODY_NED and BODY_OFFSET_NED, listed
    in the enumeration or not, the encoder takes the world-fixed branch: the
    position is the ENU-to-NED transform of the translation and the yaw is
    projected from the body-remapped orientation rotated from ENU to NED.
    This holds for a plugin whose active frame is that id, and so for the
    plugin left by a frame request that carried it. *)
Theorem other_frames_take_world_branch
    (id : MAV_FRAME.t) self delivered stamp_ tr :
  id <> MAV_FRAME.BODY_NED ->
  id <> MAV_FRAME.BODY_OFFSET_NED ->
  (mav_frame self = id ->
     position (send_position_target self stamp_ tr)
     = ftf.transform_frame_enu_ned (translation tr)
     /\ yaw (send_position_target self stamp_ tr)
        = ftf.quaternion_get_yaw
            (ftf.transform_orientation_enu_ned
               (ftf.transform_orientation_baselink_aircraft (rotation tr))))
  /\ success (snd (fst (set_mav_frame_cb
                          self {| req_mav_frame := id |} delivered))) = true
  /\ frame (send_position_target
              (fst (fst (set_mav_frame_cb
                           self {| req_mav_frame := id |} delivered)))
              stamp_ tr) = id
  /\ position (send_position_target
                 (fst (fst (set_mav_frame_cb
                              self {| req_mav_frame := id |} delivered)))
                 stamp_ tr)
     = ftf.transform_frame_enu_ned (translation tr)
  /\ yaw (send_position_target
            (fst (fst (set_mav_frame_cb
                         self {| req_mav_frame := id |} delivered)))
            stamp_ tr)
     = ftf.quaternion_get_yaw
         (ftf.transform_orientation_enu_ned
            (ftf.transform_orientation_baselink_aircraft (rotation tr))).
Proof.
  intros H8 H9. split.
  - intros Hid. subst id.
    rewrite (send_position_target_world _ _ _ H8 H9). split; reflexivity.
  - split; [reflexivity |].
    rewrite send_position_target_world
      by (rewrite set_mav_frame_cb_mav_frame; assumption).
    repeat split.
Qed.

End Service.

Lemma other_frames_take_world_branch_witness :
  200%N <> MAV_FRAME.BODY_NED
  /\ 200%N <> MAV_FRAME.BODY_OFFSET_NED
  /\ position (@send_position_target Sample.orientation
                 (fst (fst (@set_mav_frame_cb Sample.strings
                              (Sample.plugin ∅)
                              {| req_mav_frame := 200 |} true)))
                 {| sec := 1; nsec := 500000050 |} Sample.pose123)
     = {| vx := 2%float; vy := 1%float; vz := (-3)%float |}.
Proof.
  assert (H8 : 200%N <> MAV_FRAME.BODY_NED) by discriminate.
  assert (H9 : 200%N <> MAV_FRAME.BODY_OFFSET_NED) by discriminate.
  split; [exact H8 | split; [exact H9 |]].
  exact (proj1 (proj2 (proj2 (proj2
    (@other_frames_take_world_branch Sample.orientation Sample.strings
       200%N (Sample.plugin ∅) true
       {| sec := 1; nsec := 500000050 |} Sample.pose123 H8 H9))))).
Defined.

(** ** Initialization and the pose sources *)

Section Lifetime.
Context {orientation : ftf.Orientation} {strings : utils.EnumStrings}.

Lemma initialize_sources params indeterminate :
  listener_active (initialize (SetpointPositionPlugin_new params indeterminate))
  = NodeHandle.param_bool params "tf/listen" false
  /\ subscription_active
       (initialize (SetpointPositionPlugin_new params indeterminate))
     = negb (NodeHandle.param_bool params "tf/listen" false).
Proof.
  unfold initialize, listener_active, subscription_active. cbn.
  destruct (NodeHandle.param_bool params "tf/listen" false); split; reflexivity.
Qed.

(** No delivery starts or stops a pose source. *)
Lemma dispatch_keeps_sources self ev :
  tf_thd_name (fst (dispatch self ev)) = tf_thd_name self
  /\ setpoint_sub (fst (dispatch self ev)) = setpoint_sub self.
Proof.
  destruct ev as [m | m | req delivered]; cbn.
  - destruct (listener_active self); split; reflexivity.
  - destruct (subscription_active self); split; reflexivity.
  - destruct (mav_frame_srv self); split; reflexivity.
Qed.

Lemma run_keeps_sources evs : forall self,
  tf_thd_name (fst (run self evs)) = tf_thd_name self
  /\ setpoint_sub (fst (run self evs)) = setpoint_sub self.
Proof.
  induction evs as [| ev evs IH]; intros self; cbn [run].
  - split; reflexivity.
  - destruct (dispatch self ev) as [self' out] eqn:Hd.
    destruct (run self' evs) as [self'' out'] eqn:Hr.
    cbn [fst].
    destruct (IH self') as [IHl IHs]. rewrite Hr in IHl, IHs. cbn [fst] in *.
    destruct (dispatch_keeps_sources self ev) as [Dl Ds].
    rewrite Hd in Dl, Ds. cbn [fst] in *.
    split; congruence.
Qed.

(** C7. After initialization, and after any sequence of deliveries that
    follows it, exactly one pose source is active, chosen by the flag
    "tf/listen": the transform listener alone when the flag is set, the pose
    subscription alone otherwise.  Messages for the source that was not
    started produce no command. *)
Theorem exactly_one_pose_source params indeterminate evs :
  listener_active
    (fst (run (initialize (SetpointPositionPlugin_new params indeterminate)) evs))
  = NodeHandle.param_bool params "tf/listen" false
  /\ subscription_active
       (fst (run (initialize (SetpointPositionPlugin_new params indeterminate))
               evs))
     = negb (NodeHandle.param_bool params "tf/listen" false)
  /\ xorb
       (listener_active
          (fst (run (initialize (SetpointPositionPlugin_new params indeterminate))
                  evs)))
       (subscription_active
          (fst (run (initialize (SetpointPositionPlugin_new params indeterminate))
                  evs)))
     = true
  /\ (forall (m : PoseStamped) (m' : TransformStamped),
        if NodeHandle.param_bool params "tf/listen" false
        then snd (dispatch
                    (fst (run (initialize
                                 (SetpointPositionPlugin_new params indeterminate))
                            evs))
                    (PoseMessage m)) = []
        else snd (dispatch
                    (fst (run (initialize
                                 (SetpointPositionPlugin_new params indeterminate))
                            evs))
                    (TransformUpdate m')) = []).
Proof.
  set (self0 := initialize (SetpointPositionPlugin_new params indeterminate)).
  destruct (run_keeps_sources evs self0) as [Hl Hs].
  destruct (initialize_sources params indeterminate) as [Il Is].
  fold self0 in Il, Is.
  assert (Hla : listener_active (fst (run self0 evs))
                = NodeHandle.param_bool params "tf/listen" false).
  { unfold listener_active in *. rewrite Hl. exact Il. }
  assert (Hsa : subscription_active (fst (run self0 evs))
                = negb (NodeHandle.param_bool params "tf/listen" false)).
  { unfold subscription_active in *. rewrite Hs. exact Is. }
  split; [exact Hla |]. split; [exact Hsa |].
  split.
  - rewrite Hla, Hsa.
    destruct (NodeHandle.param_bool params "tf/listen" false); reflexivity.
  - intros m m'. cbn [dispatch]. rewrite Hla, Hsa.
    destruct (NodeHandle.param_bool params "tf/listen" false); reflexivity.
Qed.

(** C8. After initialization the active frame is LOCAL_NED when the
    parameter server holds no frame name under "mav_frame" (the key is
    absent, or its value is not a string), and is the frame
    [mav_frame_from_str] makes of the stored name when there is one. *)
Theorem initial_frame_from_parameters params indeterminate :
  mav_frame (initialize (SetpointPositionPlugin_new params indeterminate))
  = match NodeHandle.getParam_string params "mav_frame" with
    | None => MAV_FRAME.LOCAL_NED
    | Some name => utils.mav_frame_from_str name
    end
  /\ match params !! "mav_frame"%string with
     | None =>
         mav_frame (initialize (SetpointPositionPlugin_new params indeterminate))
         = MAV_FRAME.LOCAL_NED
     | Some (TypeString name) =>
         mav_frame (initialize (SetpointPositionPlugin_new params indeterminate))
         = utils.mav_frame_from_str name
     | Some _ =>
         mav_frame (initialize (SetpointPositionPlugin_new params indeterminate))
         = MAV_FRAME.LOCAL_NED
     end.
Proof.
  split; [reflexivity |].
  unfold initialize, NodeHandle.getParam_string. cbn.
  destruct (params !! "mav_frame"%string) as [[b | i | d | s] |]; reflexivity.
Qed.

End Lifetime.

(** ** The rate limit of the transform stream *)

Section Stream.
Context {A B : Type} (rate : float) (cb : A -> B).

Lemma on_update_dropped lim now m :
  TF2ListenerMixin.too_soon rate lim now = true ->
  TF2ListenerMixin.on_update rate cb lim now m = (lim, []).
Proof.
  intros Hs. unfold TF2ListenerMixin.on_update. rewrite Hs. reflexivity.
Qed.

Lemma on_update_accepted lim now m :
  TF2ListenerMixin.too_soon rate lim now = false ->
  TF2ListenerMixin.on_update rate cb lim now m
  = ({| TF2ListenerMixin.last_processed := Some now |}, [cb m]).
Proof.
  intros Hs. unfold TF2ListenerMixin.on_update. rewrite Hs. reflexivity.
Qed.

(** A dropped update leaves no trace: the rest of the stream is handled as
    if it had never arrived. *)
Lemma listen_skips_dropped lim now m rest :
  TF2ListenerMixin.too_soon rate lim now = true ->
  TF2ListenerMixin.listen rate cb lim ((now, m) :: rest)
  = TF2ListenerMixin.listen rate cb lim rest.
Proof.
  intros Hs. cbn [TF2ListenerMixin.listen].
  rewrite (on_update_dropped _ _ _ Hs).
  destruct (TF2ListenerMixin.listen rate cb lim rest) as [lim' out].
  reflexivity.
Qed.

(** An accepted update is forwarded once, ahead of whatever follows. *)
Lemma listen_forwards_accepted lim now m rest :
  TF2ListenerMixin.too_soon rate lim now = false ->
  snd (TF2ListenerMixin.listen rate cb lim ((now, m) :: rest))
  = cb m :: snd (TF2ListenerMixin.listen rate cb
                   {| TF2ListenerMixin.last_processed := Some now |} rest).
Proof.
  intros Hs. cbn [TF2ListenerMixin.listen].
  rewrite (on_update_accepted _ _ _ Hs).
  destruct (TF2ListenerMixin.listen rate cb _ rest) as [lim' out].
  reflexivity.
Qed.

(** A burst of updates that all come too soon after the last processed one
    is dropped as a whole: each is measured against the same clock. *)
Lemma listen_skips_burst t0 burst rest :
  Forall (fun u : float * A =>
            TF2ListenerMixin.too_soon rate
              {| TF2ListenerMixin.last_processed := Some t0 |} (fst u) = true)
         burst ->
  TF2ListenerMixin.listen rate cb
    {| TF2ListenerMixin.last_processed := Some t0 |} (burst ++ rest)
  = TF2ListenerMixin.listen rate cb
      {| TF2ListenerMixin.last_processed := Some t0 |} rest.
Proof.
  induction burst as [| [t m] burst IH]; intros Hall.
  - reflexivity.
  - inversion Hall as [| u us Hsoon Hrest]; subst.
    cbn [fst] in Hsoon. cbn [app].
    rewrite (listen_skips_dropped _ _ _ _ Hsoon).
    apply IH. exact Hrest.
Qed.

(** What is forwarded is taken from the updates, in their order and each
    at most once. *)
Lemma listen_sublist updates : forall lim,
  sublist (snd (TF2ListenerMixin.listen rate cb lim updates))
          (map (fun u : float * A => cb (snd u)) updates).
Proof.
  induction updates as [| [t m] updates IH]; intros lim.
  - constructor.
  - cbn [map snd].
    destruct (TF2ListenerMixin.too_soon rate lim t) eqn:Hsoon.
    + rewrite (listen_skips_dropped _ _ _ _ Hsoon).
      apply sublist_cons. apply IH.
    + rewrite (listen_forwards_accepted _ _ _ _ Hsoon).
      apply sublist_skip. apply IH.
Qed.

(** A listener that has processed nothing yet forwards the first update. *)
Lemma listen_first_forwarded now m rest :
  snd (TF2ListenerMixin.listen rate cb TF2ListenerMixin.start
         ((now, m) :: rest))
  = cb m :: snd (TF2ListenerMixin.listen rate cb
                   {| TF2ListenerMixin.last_processed := Some now |} rest).
Proof.
  apply listen_forwards_accepted. reflexivity.
Qed.

End Stream.

Section StreamOfPlugin.
Context {orientation : ftf.Orientation} {strings : utils.EnumStrings}.

Lemma initialize_default_rate params indeterminate :
  params !! "tf/rate_limit"%string = None ->
  tf_rate (initialize (SetpointPositionPlugin_new params indeterminate))
  = 50%float.
Proof.
  intros Hnone. unfold initialize, NodeHandle.param_double. cbn.
  rewrite Hnone. reflexivity.
Qed.

(** C9. The stream listener runs at the plugin's rate limit, 50 updates per
    second unless configured, and only for a plugin whose listener was
    started.  An update that arrives sooner than one over the rate after
    the last processed update is dropped: nothing is forwarded, the
    limiter's clock stays where it was, and the rest of the stream is
    handled as if the update had never arrived; so a whole burst after one
    processed update is dropped.  Any other update moves the clock to its
    arrival time and causes exactly one call of the encoder, on that
    update; the commands of a stream are taken from its updates in order,
    each at most once, the first update always among them.  At 50 updates
    per second, of two updates 5 ms apart only the first is forwarded. *)
Theorem stream_rate_limit self lim now m rest :
  (forall params indeterminate,
      params !! "tf/rate_limit"%string = None ->
      tf_rate (initialize (SetpointPositionPlugin_new params indeterminate))
      = 50%float)
  /\ (listener_active self = false ->
      forall updates,
        tf2_stream self updates = (TF2ListenerMixin.start, []))
  /\ (TF2ListenerMixin.too_soon (tf_rate self) lim now = true ->
      TF2ListenerMixin.on_update (tf_rate self) (transform_cb self) lim now m
      = (lim, [])
      /\ TF2ListenerMixin.listen (tf_rate self) (transform_cb self) lim
           ((now, m) :: rest)
         = TF2ListenerMixin.listen (tf_rate self) (transform_cb self) lim rest)
  /\ (TF2ListenerMixin.too_soon (tf_rate self) lim now = false ->
      snd (TF2ListenerMixin.listen (tf_rate self) (transform_cb self) lim
             ((now, m) :: rest))
      = send_position_target self (stamp (ts_header m))
          (transformMsgToEigen (transform m))
        :: snd (TF2ListenerMixin.listen (tf_rate self) (transform_cb self)
                  {| TF2ListenerMixin.last_processed := Some now |} rest))
  /\ (forall (t0 : float) (burst : list (float * TransformStamped)),
        Forall (fun u =>
                  TF2ListenerMixin.too_soon (tf_rate self)
                    {| TF2ListenerMixin.last_processed := Some t0 |} (fst u)
                  = true) burst ->
        TF2ListenerMixin.listen (tf_rate self) (transform_cb self)
          {| TF2ListenerMixin.last_processed := Some t0 |} (burst ++ rest)
        = TF2ListenerMixin.listen (tf_rate self) (transform_cb self)
            {| TF2ListenerMixin.last_processed := Some t0 |} rest)
  /\ (forall updates,
        sublist (snd (tf2_stream self updates))
                (map (fun u => transform_cb self (snd u)) updates))
  /\ (listener_active self = true ->
      snd (tf2_stream self ((now, m) :: rest))
      = transform_cb self m
        :: snd (TF2ListenerMixin.listen (tf_rate self) (transform_cb self)
                  {| TF2ListenerMixin.last_processed := Some now |} rest))
  /\ (listener_active self = true ->
      tf_rate self = 50%float ->
      forall m1 m2 : TransformStamped,
        tf2_stream self [(0%float, m1); ((5 / 1000)%float, m2)]
        = ({| TF2ListenerMixin.last_processed := Some 0%float |},
           [transform_cb self m1])
        /\ tf2_stream self [(100%float, m1); ((100 + 5 / 1000)%float, m2)]
           = ({| TF2ListenerMixin.last_processed := Some 100%float |},
              [transform_cb self m1])).
Proof.
  split; [apply initialize_default_rate |].
  split.
  { intros Hoff updates. unfold tf2_stream. rewrite Hoff. reflexivity. }
  split.
  { intros Hs. split.
    - apply on_update_dropped. exact Hs.
    - apply listen_skips_dropped. exact Hs. }
  split.
  { intros Hs.
    rewrite (listen_forwards_accepted (tf_rate self) (transform_cb self)
               _ _ _ _ Hs).
    reflexivity. }
  split.
  { intros t0 burst Hall. apply listen_skips_burst. exact Hall. }
  split.
  { intros updates. unfold tf2_stream.
    destruct (listener_active self).
    - apply listen_sublist.
    - cbn [snd]. apply sublist_nil_l. }
  split.
  { intros Hon. unfold tf2_stream. rewrite Hon.
    apply listen_first_forwarded. }
  intros Hon Hrate m1 m2. unfold tf2_stream. rewrite Hon, Hrate.
  split; reflexivity.
Qed.

End StreamOfPlugin.

Lemma stream_rate_limit_witness :
  listener_active
    (Sample.plugin {[ "tf/listen"%string := TypeBoolean true ]}) = true
  /\ tf_rate (Sample.plugin {[ "tf/listen"%string := TypeBoolean true ]})
     = 50%float
  /\ TF2ListenerMixin.too_soon
       (tf_rate (Sample.plugin {[ "tf/listen"%string := TypeBoolean true ]}))
       {| TF2ListenerMixin.last_processed := Some 0%float |}
       (5 / 1000)%float = true
  /\ TF2ListenerMixin.too_soon
       (tf_rate (Sample.plugin {[ "tf/listen"%string := TypeBoolean true ]}))
       {| TF2ListenerMixin.last_processed := Some 0%float |}
       (20 / 1000)%float = false
  /\ TF2ListenerMixin.listen
       (tf_rate (Sample.plugin {[ "tf/listen"%string := TypeBoolean true ]}))
       (@transform_cb Sample.orientation
          (Sample.plugin {[ "tf/listen"%string := TypeBoolean true ]}))
       {| TF2ListenerMixin.last_processed := Some 0%float |}
       [((5 / 1000)%float, Sample.update_at 2)]
     = ({| TF2ListenerMixin.last_processed := Some 0%float |}, [])
  /\ snd (TF2ListenerMixin.listen
            (tf_rate (Sample.plugin {[ "tf/listen"%string := TypeBoolean true ]}))
            (@transform_cb Sample.orientation
               (Sample.plugin {[ "tf/listen"%string := TypeBoolean true ]}))
            {| TF2ListenerMixin.last_processed := Some 0%float |}
            [((20 / 1000)%float, Sample.update_at 2)])
     = [@send_position_target Sample.orientation
          (Sample.plugin {[ "tf/listen"%string := TypeBoolean true ]})
          {| sec := 2; nsec := 0 |} Sample.pose123]
  /\ @tf2_stream Sample.orientation
       (Sample.plugin {[ "tf/listen"%string := TypeBoolean true ]})
       [(0%float, Sample.update_at 1); ((5 / 1000)%float, Sample.update_at 2)]
     = ({| TF2ListenerMixin.last_processed := Some 0%float |},
        [@transform_cb Sample.orientation
           (Sample.plugin {[ "tf/listen"%string := TypeBoolean true ]})
           (Sample.update_at 1)])
  /\ @tf2_stream Sample.orientation (Sample.plugin ∅)
       [(0%float, Sample.update_at 1); ((5 / 1000)%float, Sample.update_at 2)]
     = (TF2ListenerMixin.start, []).
Proof.
  pose proof (@stream_rate_limit Sample.orientation Sample.strings
                (Sample.plugin {[ "tf/listen"%string := TypeBoolean true ]})
                {| TF2ListenerMixin.last_processed := Some 0%float |}
                (5 / 1000)%float (Sample.update_at 2) []) as Hsoon.
  pose proof (@stream_rate_limit Sample.orientation Sample.strings
                (Sample.plugin {[ "tf/listen"%string := TypeBoolean true ]})
                {| TF2ListenerMixin.last_processed := Some 0%float |}
                (20 / 1000)%float (Sample.update_at 2) []) as Hlate.
  pose proof (@stream_rate_limit Sample.orientation Sample.strings
                (Sample.plugin ∅)
                {| TF2ListenerMixin.last_processed := Some 0%float |}
                (5 / 1000)%float (Sample.update_at 2) []) as Hoff.
  split; [reflexivity |].
  split; [reflexivity |].
  split; [reflexivity |].
  split; [reflexivity |].
  split; [exact (proj2 (proj1 (proj2 (proj2 Hsoon)) eq_refl)) |].
  split; [exact (proj1 (proj2 (proj2 (proj2 Hlate))) eq_refl) |].
  split.
  - exact (proj1 (proj2 (proj2 (proj2 (proj2 (proj2 (proj2 (proj2 Hsoon))))))
                    eq_refl eq_refl
                    (Sample.update_at 1) (Sample.update_at 2))).
  - exact (proj1 (proj2 Hoff) eq_refl
             [(0%float, Sample.update_at 1);
              ((5 / 1000)%float, Sample.update_at 2)]).
Defined.

(** * Further properties of the plugin *)

(** ** What the encoder reads *)

Section EncoderReads.
Context {orientation : ftf.Orientation}.

(** X1. BODY_NED and BODY_OFFSET_NED are encoded alike: for the same stamp
    and pose the two commands agree in every field but [frame], which
    carries the respective id. *)
Theorem body_frames_differ_only_in_frame self self' stamp_ tr :
  mav_frame self = MAV_FRAME.BODY_NED ->
  mav_frame self' = MAV_FRAME.BODY_OFFSET_NED ->
  send_position_target self' stamp_ tr =
    {| time_ms := time_ms (send_position_target self stamp_ tr);
       frame := MAV_FRAME.BODY_OFFSET_NED;
       ignore_mask := ignore_mask (send_position_target self stamp_ tr);
       position := position (send_position_target self stamp_ tr);
       velocity := velocity (send_position_target self stamp_ tr);
       acceleration := acceleration (send_position_target self stamp_ tr);
       yaw := yaw (send_position_target self stamp_ tr);
       yaw_rate := yaw_rate (send_position_target self stamp_ tr) |}
  /\ frame (send_position_target self stamp_ tr) = MAV_FRAME.BODY_NED.
Proof.
  intros H8 H9.
  rewrite (send_position_target_body self) by (left; exact H8).
  rewrite (send_position_target_body self') by (right; exact H9).
  rewrite H8, H9. split; reflexivity.
Qed.

(** X2. All frames other than BODY_NED and BODY_OFFSET_NED are encoded
    alike, LOCAL_ENU included: for the same stamp and pose the commands of
    two such frames agree in every field but [frame].  The encoder never
    sends the translation as it came. *)
Theorem other_frames_differ_only_in_frame self self' stamp_ tr :
  mav_frame self <> MAV_FRAME.BODY_NED ->
  mav_frame self <> MAV_FRAME.BODY_OFFSET_NED ->
  mav_frame self' <> MAV_FRAME.BODY_NED ->
  mav_frame self' <> MAV_FRAME.BODY_OFFSET_NED ->
  send_position_target self' stamp_ tr =
    {| time_ms := time_ms (send_position_target self stamp_ tr);
       frame := mav_frame self';
       ignore_mask := ignore_mask (send_position_target self stamp_ tr);
       position := position (send_position_target self stamp_ tr);
       velocity := velocity (send_position_target self stamp_ tr);
       acceleration := acceleration (send_position_target self stamp_ tr);
       yaw := yaw (send_position_target self stamp_ tr);
       yaw_rate := yaw_rate (send_position_target self stamp_ tr) |}.
Proof.
  intros H8 H9 H8' H9'.
  rewrite (send_position_target_world self _ _ H8 H9).
  rewrite (send_position_target_world self' _ _ H8' H9').
  reflexivity.
Qed.

(** X3. The fields of a command are read from separate inputs: the
    position from the frame and the translation only, the yaw from the
    frame and the rotation only, the time from the stamp only; no other
    member of the plugin (parameters, rate, pose sources) has any effect. *)
Theorem command_fields_read_separately self self' stamp_ stamp' tr tr' :
  mav_frame self' = mav_frame self ->
  (translation tr' = translation tr ->
   position (send_position_target self' stamp' tr')
   = position (send_position_target self stamp_ tr))
  /\ (rotation tr' = rotation tr ->
      yaw (send_position_target self' stamp' tr')
      = yaw (send_position_target self stamp_ tr))
  /\ (toNSec stamp' = toNSec stamp_ ->
      time_ms (send_position_target self' stamp' tr')
      = time_ms (send_position_target self stamp_ tr))
  /\ (stamp' = stamp_ -> tr' = tr ->
      send_position_target self' stamp' tr'
      = send_position_target self stamp_ tr).
Proof.
  intros Hf. unfold send_position_target. rewrite Hf. cbn.
  split; [intros ->; reflexivity |].
  split; [intros ->; reflexivity |].
  split; [intros ->; reflexivity |].
  intros -> ->. reflexivity.
Qed.


(** X5. Within what the 32-bit field holds, truncation keeps the order of
    stamps: when the later nanosecond count is below 2^32 milliseconds, it
    never gets the earlier time.  Two counts in the same millisecond get
    the same time, whatever their size. *)
Theorem time_ms_monotone self stamp_ stamp' tr tr' :
  (toNSec stamp_ <= toNSec stamp')%N ->
  ((toNSec stamp' < 2 ^ 32 * 1000000)%N ->
   (time_ms (send_position_target self stamp_ tr)
    <= time_ms (send_position_target self stamp' tr'))%N)
  /\ ((toNSec stamp' < (toNSec stamp_ / 1000000 + 1) * 1000000)%N ->
      time_ms (send_position_target self stamp' tr')
      = time_ms (send_position_target self stamp_ tr)).
Proof.
  intros Hle.
  destruct (send_position_target_fixed self stamp_ tr) as (Ht & _).
  destruct (send_position_target_fixed self stamp' tr') as (Ht' & _).
  rewrite Ht, Ht'. clear Ht Ht'.
  assert (Hmono : (toNSec stamp_ / 1000000 <= toNSec stamp' / 1000000)%N)
    by (apply N.Div0.div_le_mono; exact Hle).
  split.
  - intros Hfit.
    assert (Hq' : (toNSec stamp' / 1000000 < 2 ^ 32)%N).
    { apply N.Div0.div_lt_upper_bound. lia. }
    assert (Hq : (toNSec stamp_ / 1000000 < 2 ^ 32)%N) by lia.
    rewrite (N.mod_small _ _ Hq), (N.mod_small _ _ Hq'). exact Hmono.
  - intros Hlt.
    assert (Hup : (toNSec stamp' / 1000000 < toNSec stamp_ / 1000000 + 1)%N).
    { apply N.Div0.div_lt_upper_bound. lia. }
    f_equal. lia.
Qed.

(** X6. The two callbacks encode alike: a transform update and a pose
    message carrying the same stamp, translation and rotation yield the
    same command, the one [send_position_target] gives for them. *)
Theorem callbacks_agree self (m : TransformStamped) (req : PoseStamped) :
  stamp (ps_header req) = stamp (ts_header m) ->
  pose_position (pose req) = tf_translation (transform m) ->
  pose_orientation (pose req) = tf_rotation (transform m) ->
  setpoint_cb self req = transform_cb self m
  /\ transform_cb self m
     = send_position_target self (stamp (ts_header m))
         {| translation := tf_translation (transform m);
            rotation := tf_rotation (transform m) |}.
Proof.
  intros Hs Hp Ho.
  unfold setpoint_cb, transform_cb, poseMsgToEigen, transformMsgToEigen.
  rewrite Hs, Hp, Ho. split; reflexivity.
Qed.

End EncoderReads.

Lemma body_frames_differ_only_in_frame_witness :
  mav_frame (Sample.at_frame MAV_FRAME.BODY_NED) = MAV_FRAME.BODY_NED
  /\ mav_frame (Sample.at_frame MAV_FRAME.BODY_OFFSET_NED)
     = MAV_FRAME.BODY_OFFSET_NED
  /\ frame (@send_position_target Sample.orientation
              (Sample.at_frame MAV_FRAME.BODY_NED)
              {| sec := 1; nsec := 500000050 |} Sample.pose123)
     = MAV_FRAME.BODY_NED.
Proof.
  split; [reflexivity |]. split; [reflexivity |].
  exact (proj2 (@body_frames_differ_only_in_frame Sample.orientation
                  (Sample.at_frame MAV_FRAME.BODY_NED)
                  (Sample.at_frame MAV_FRAME.BODY_OFFSET_NED)
                  {| sec := 1; nsec := 500000050 |} Sample.pose123
                  eq_refl eq_refl)).
Defined.

Lemma other_frames_differ_only_in_frame_witness :
  mav_frame (Sample.at_frame MAV_FRAME.LOCAL_NED) <> MAV_FRAME.BODY_NED
  /\ mav_frame (Sample.at_frame MAV_FRAME.LOCAL_ENU) <> MAV_FRAME.BODY_NED
  /\ position (@send_position_target Sample.orientation
                 (Sample.at_frame MAV_FRAME.LOCAL_ENU)
                 {| sec := 1; nsec := 500000050 |} Sample.pose123)
     = position (@send_position_target Sample.orientation
                   (Sample.at_frame MAV_FRAME.LOCAL_NED)
                   {| sec := 1; nsec := 500000050 |} Sample.pose123).
Proof.
  assert (Ha : mav_frame (Sample.at_frame MAV_FRAME.LOCAL_NED)
               <> MAV_FRAME.BODY_NED) by (vm_compute; discriminate).
  assert (Hb : mav_frame (Sample.at_frame MAV_FRAME.LOCAL_NED)
               <> MAV_FRAME.BODY_OFFSET_NED) by (vm_compute; discriminate).
  assert (Hc : mav_frame (Sample.at_frame MAV_FRAME.LOCAL_ENU)
               <> MAV_FRAME.BODY_NED) by (vm_compute; discriminate).
  assert (Hd : mav_frame (Sample.at_frame MAV_FRAME.LOCAL_ENU)
               <> MAV_FRAME.BODY_OFFSET_NED) by (vm_compute; discriminate).
  split; [exact Ha |]. split; [exact Hc |].
  exact (f_equal position
           (@other_frames_differ_only_in_frame Sample.orientation
              (Sample.at_frame MAV_FRAME.LOCAL_NED)
              (Sample.at_frame MAV_FRAME.LOCAL_ENU)
              {| sec := 1; nsec := 500000050 |} Sample.pose123
              Ha Hb Hc Hd)).
Defined.

Lemma command_fields_read_separately_witness :
  mav_frame (Sample.plugin {[ "tf/listen"%string := TypeBoolean true ]})
  = mav_frame (Sample.plugin ∅)
  /\ @send_position_target Sample.orientation
       (Sample.plugin {[ "tf/listen"%string := TypeBoolean true ]})
       {| sec := 1; nsec := 500000050 |} Sample.pose123
     = @send_position_target Sample.orientation (Sample.plugin ∅)
         {| sec := 1; nsec := 500000050 |} Sample.pose123.
Proof.
  split; [reflexivity |].
  exact (proj2 (proj2 (proj2
    (@command_fields_read_separately Sample.orientation
       (Sample.plugin ∅)
       (Sample.plugin {[ "tf/listen"%string := TypeBoolean true ]})
       {| sec := 1; nsec := 500000050 |} {| sec := 1; nsec := 500000050 |}
       Sample.pose123 Sample.pose123 eq_refl))) eq_refl eq_refl).
Defined.


Lemma time_ms_monotone_witness :
  (toNSec {| sec := 1; nsec := 499999999 |}
   <= toNSec {| sec := 1; nsec := 500000050 |})%N
  /\ (toNSec {| sec := 1; nsec := 500000050 |} < 2 ^ 32 * 1000000)%N
  /\ (time_ms (@send_position_target Sample.orientation (Sample.plugin ∅)
                 {| sec := 1; nsec := 499999999 |} Sample.pose123)
      <= time_ms (@send_position_target Sample.orientation (Sample.plugin ∅)
                    {| sec := 1; nsec := 500000050 |} Sample.pose123))%N.
Proof.
  assert (Hle : (toNSec {| sec := 1; nsec := 499999999 |}
                 <= toNSec {| sec := 1; nsec := 500000050 |})%N)
    by (vm_compute; discriminate).
  assert (Hfit : (toNSec {| sec := 1; nsec := 500000050 |}
                  < 2 ^ 32 * 1000000)%N) by reflexivity.
  split; [exact Hle |]. split; [exact Hfit |].
  exact (proj1 (@time_ms_monotone Sample.orientation (Sample.plugin ∅)
                  {| sec := 1; nsec := 499999999 |}
                  {| sec := 1; nsec := 500000050 |}
                  Sample.pose123 Sample.pose123 Hle) Hfit).
Defined.

Lemma callbacks_agree_witness :
  @setpoint_cb Sample.orientation (Sample.plugin ∅)
    {| ps_header := {| stamp := {| sec := 7; nsec := 0 |} |};
       pose := {| pose_position := translation Sample.pose123;
                  pose_orientation := rotation Sample.pose123 |} |}
  = @transform_cb Sample.orientation (Sample.plugin ∅) (Sample.update_at 7).
Proof.
  exact (proj1 (@callbacks_agree Sample.orientation (Sample.plugin ∅)
                  (Sample.update_at 7)
                  {| ps_header := {| stamp := {| sec := 7; nsec := 0 |} |};
                     pose := {| pose_position := translation Sample.pose123;
                                pose_orientation := rotation Sample.pose123 |} |}
                  eq_refl eq_refl eq_refl)).
Defined.

(** ** Initialization *)

Section Initialization.
Context {strings : utils.EnumStrings}.

(** X7. On a parameter server that holds none of the plugin's keys,
    [initialize] yields the default plugin: pose subscription on "local"
    with a queue of 10 and no transform listener, frame ids "map" and
    "target_position", rate 50, active frame LOCAL_NED, the "mav_frame"
    service advertised, the parameters left as they were. *)
Theorem initialize_defaults (params : NodeHandle.t) indeterminate :
  params !! "tf/listen"%string = None ->
  params !! "tf/frame_id"%string = None ->
  params !! "tf/child_frame_id"%string = None ->
  params !! "tf/rate_limit"%string = None ->
  params !! "mav_frame"%string = None ->
  initialize (SetpointPositionPlugin_new params indeterminate)
  = {| sp_nh := params;
       setpoint_sub := Some {| topic := "local"; queue_size := 10 |};
       mav_frame_srv := Some "mav_frame"%string;
       tf_frame_id := "map"; tf_child_frame_id := "target_position";
       tf_listen := false; tf_rate := 50%float;
       mav_frame := MAV_FRAME.LOCAL_NED; tf_thd_name := None |}.
Proof.
  intros Hl Hf Hc Hr Hm.
  unfold initialize, NodeHandle.param_bool, NodeHandle.param_string,
    NodeHandle.param_double, NodeHandle.getParam_string,
    SetpointPositionPlugin_new.
  cbn [sp_nh setpoint_sub tf_thd_name].
  rewrite Hl, Hf, Hc, Hr, Hm. reflexivity.
Qed.

(** X8. Configured values are taken as they are: the two frame ids and the
    rate limit stored on the parameter server become the plugin's, and the
    rate is not checked (zero and negative rates are kept). *)
Theorem initialize_takes_configuration
    (params : NodeHandle.t) indeterminate fid cid (rate_limit : float) :
  params !! "tf/frame_id"%string = Some (TypeString fid) ->
  params !! "tf/child_frame_id"%string = Some (TypeString cid) ->
  params !! "tf/rate_limit"%string = Some (TypeDouble rate_limit) ->
  tf_frame_id (initialize (SetpointPositionPlugin_new params indeterminate))
  = fid
  /\ tf_child_frame_id
       (initialize (SetpointPositionPlugin_new params indeterminate)) = cid
  /\ tf_rate (initialize (SetpointPositionPlugin_new params indeterminate))
     = rate_limit.
Proof.
  intros Hf Hc Hr.
  unfold initialize, NodeHandle.param_string, NodeHandle.param_double,
    NodeHandle.getParam_string.
  cbn [sp_nh SetpointPositionPlugin_new tf_frame_id tf_child_frame_id tf_rate].
  rewrite Hf, Hc, Hr. repeat split.
Qed.

(** X9. [initialize] assigns every member it leaves behind: the plugin it
    yields does not depend on the value [mav_frame] held before, the
    "mav_frame" service is advertised in both listening modes, and the
    parameter server is only read. *)
Theorem initialize_assigns_all (params : NodeHandle.t) a b :
  initialize (SetpointPositionPlugin_new params a)
  = initialize (SetpointPositionPlugin_new params b)
  /\ mav_frame_srv (initialize (SetpointPositionPlugin_new params a))
     = Some "mav_frame"%string
  /\ sp_nh (initialize (SetpointPositionPlugin_new params a)) = params
  /\ tf_listen (initialize (SetpointPositionPlugin_new params a))
     = listener_active (initialize (SetpointPositionPlugin_new params a)).
Proof.
  split; [reflexivity |]. split; [reflexivity |]. split; [reflexivity |].
  unfold initialize, listener_active. cbn.
  destruct (NodeHandle.param_bool params "tf/listen" false); reflexivity.
Qed.

(** ** More on the frame-selection service *)

(** X10. A frame request touches the active frame and the key "mav_frame"
    only: every other parameter and every other member of the plugin (pose
    sources, frame ids, rate, service) stays as it was. *)
Theorem frame_request_touches_frame_only self req delivered (key : string) :
  key <> "mav_frame"%string ->
  sp_nh (fst (fst (set_mav_frame_cb self req delivered))) !! key
  = sp_nh self !! key
  /\ fst (fst (set_mav_frame_cb self req delivered))
     = {| sp_nh := sp_nh (fst (fst (set_mav_frame_cb self req delivered)));
          setpoint_sub := setpoint_sub self;
          mav_frame_srv := mav_frame_srv self;
          tf_frame_id := tf_frame_id self;
          tf_child_frame_id := tf_child_frame_id self;
          tf_listen := tf_listen self; tf_rate := tf_rate self;
          mav_frame := req_mav_frame req;
          tf_thd_name := tf_thd_name self |}.
Proof.
  intros Hk. split; [| reflexivity].
  unfold set_mav_frame_cb, NodeHandle.setParam. cbn [fst sp_nh].
  destruct delivered; [| reflexivity].
  apply lookup_insert_ne. congruence.
Qed.

(** X11. Of two requests the later one decides the active frame.  When its
    write is taken the plugin is the one the later request alone would have
    left; when its write is lost but the earlier one was taken, the stored
    name is still the earlier frame's while the active frame is the later
    one. *)
Theorem later_frame_request_wins self a b delivered :
  mav_frame
    (fst (fst (set_mav_frame_cb
                 (fst (fst (set_mav_frame_cb self a delivered))) b delivered)))
  = req_mav_frame b
  /\ fst (fst (set_mav_frame_cb
                 (fst (fst (set_mav_frame_cb self a delivered))) b true))
     = fst (fst (set_mav_frame_cb self b true))
  /\ sp_nh (fst (fst (set_mav_frame_cb
                        (fst (fst (set_mav_frame_cb self a true))) b false)))
       !! "mav_frame"%string
     = Some (TypeString (utils.to_string (req_mav_frame a)))
  /\ mav_frame (fst (fst (set_mav_frame_cb
                            (fst (fst (set_mav_frame_cb self a true))) b false)))
     = req_mav_frame b.
Proof.
  split; [reflexivity |].
  split.
  - unfold set_mav_frame_cb, NodeHandle.setParam.
    cbn [fst sp_nh setpoint_sub mav_frame_srv tf_frame_id tf_child_frame_id
         tf_listen tf_rate mav_frame tf_thd_name].
    unfold NodeHandle.t in *.
    destruct delivered; [rewrite insert_insert_eq |]; reflexivity.
  - split; [| reflexivity].
    cbn. apply lookup_insert_eq.
Qed.

(** X12. A frame whose name reads back to it survives a restart: after a
    request whose write was taken, a plugin initialized from the resulting
    parameters starts in the requested frame.  When the write was lost, the
    restarted plugin starts as the one before the request would have. *)
Theorem persisted_frame_survives_restart self req indeterminate :
  utils.mav_frame_from_str (utils.to_string (req_mav_frame req))
  = req_mav_frame req ->
  mav_frame
    (initialize
       (SetpointPositionPlugin_new
          (sp_nh (fst (fst (set_mav_frame_cb self req true)))) indeterminate))
  = req_mav_frame req
  /\ initialize
       (SetpointPositionPlugin_new
          (sp_nh (fst (fst (set_mav_frame_cb self req false)))) indeterminate)
     = initialize (SetpointPositionPlugin_new (sp_nh self) indeterminate).
Proof.
  intros Hrt. split; [| reflexivity].
  unfold initialize, NodeHandle.getParam_string.
  cbn [sp_nh SetpointPositionPlugin_new mav_frame set_mav_frame_cb fst
       NodeHandle.setParam].
  assert (Hget :
    <["mav_frame"%string := TypeString (utils.to_string (req_mav_frame req))]>
      (sp_nh self) !! "mav_frame"%string
    = Some (TypeString (utils.to_string (req_mav_frame req))))
    by apply lookup_insert_eq.
  rewrite Hget. exact Hrt.
Qed.

End Initialization.

Lemma initialize_defaults_witness :
  @initialize Sample.strings (SetpointPositionPlugin_new ∅ 0%N)
  = {| sp_nh := ∅;
       setpoint_sub := Some {| topic := "local"; queue_size := 10 |};
       mav_frame_srv := Some "mav_frame"%string;
       tf_frame_id := "map"; tf_child_frame_id := "target_position";
       tf_listen := false; tf_rate := 50%float;
       mav_frame := MAV_FRAME.LOCAL_NED; tf_thd_name := None |}.
Proof.
  exact (@initialize_defaults Sample.strings ∅ 0%N
           (lookup_empty _) (lookup_empty _) (lookup_empty _)
           (lookup_empty _) (lookup_empty _)).
Defined.

Lemma initialize_takes_configuration_witness :
  tf_rate
    (@initialize Sample.strings
       (SetpointPositionPlugin_new
          (<["tf/frame_id"%string := TypeString "odom"]>
             (<["tf/child_frame_id"%string := TypeString "goal"]>
                (<["tf/rate_limit"%string := TypeDouble 0%float]> ∅)))
          0%N))
  = 0%float.
Proof.
  refine (proj2 (proj2
    (@initialize_takes_configuration Sample.strings
       (<["tf/frame_id"%string := TypeString "odom"]>
          (<["tf/child_frame_id"%string := TypeString "goal"]>
             (<["tf/rate_limit"%string := TypeDouble 0%float]> ∅)))
       0%N "odom" "goal" 0%float _ _ _))).
  - reflexivity.
  - reflexivity.
  - reflexivity.
Defined.

Lemma frame_request_touches_frame_only_witness :
  "tf/listen"%string <> "mav_frame"%string
  /\ sp_nh (fst (fst (@set_mav_frame_cb Sample.strings
                        (Sample.plugin
                           {[ "tf/listen"%string := TypeBoolean true ]})
                        {| req_mav_frame := 8 |} true)))
       !! "tf/listen"%string
     = (Sample.plugin {[ "tf/listen"%string := TypeBoolean true ]}).(sp_nh)
         !! "tf/listen"%string.
Proof.
  assert (Hk : "tf/listen"%string <> "mav_frame"%string) by discriminate.
  split; [exact Hk |].
  exact (proj1 (@frame_request_touches_frame_only Sample.strings
                  (Sample.plugin {[ "tf/listen"%string := TypeBoolean true ]})
                  {| req_mav_frame := 8 |} true "tf/listen"%string Hk)).
Defined.

Lemma persisted_frame_survives_restart_witness :
  @utils.mav_frame_from_str Sample.strings
    (@utils.to_string Sample.strings MAV_FRAME.BODY_NED)
  = MAV_FRAME.BODY_NED
  /\ mav_frame
       (@initialize Sample.strings
          (SetpointPositionPlugin_new
             (sp_nh (fst (fst (@set_mav_frame_cb Sample.strings
                                 (Sample.plugin ∅)
                                 {| req_mav_frame := MAV_FRAME.BODY_NED |}
                                 true))))
             0%N))
     = MAV_FRAME.BODY_NED.
Proof.
  split; [reflexivity |].
  exact (proj1 (@persisted_frame_survives_restart Sample.strings
                  (Sample.plugin ∅)
                  {| req_mav_frame := MAV_FRAME.BODY_NED |} 0%N eq_refl)).
Defined.

(** ** Sequences of deliveries *)

Section Deliveries.
Context {orientation : ftf.Orientation} {strings : utils.EnumStrings}.

Lemma run_app evs evs' : forall self,
  run self (evs ++ evs')
  = (fst (run (fst (run self evs)) evs'),
     snd (run self evs) ++ snd (run (fst (run self evs)) evs')).
Proof.
  induction evs as [| ev evs IH]; intros self.
  - cbn. destruct (run self evs'); reflexivity.
  - cbn [app run]. destruct (dispatch self ev) as [self1 out1].
    rewrite (IH self1).
    destruct (run self1 evs) as [self2 out2]. cbn [fst snd].
    destruct (run self2 evs') as [self3 out3]. cbn [fst snd].
    rewrite app_assoc. reflexivity.
Qed.

Lemma dispatch_keeps_service self ev :
  mav_frame_srv (fst (dispatch self ev)) = mav_frame_srv self.
Proof.
  destruct ev as [m | m | req delivered]; cbn.
  - destruct (listener_active self); reflexivity.
  - destruct (subscription_active self); reflexivity.
  - destruct (mav_frame_srv self) as [name |] eqn:Hsrv; cbn;
      [reflexivity | exact Hsrv].
Qed.

Lemma run_keeps_service evs : forall self,
  mav_frame_srv (fst (run self evs)) = mav_frame_srv self.
Proof.
  induction evs as [| ev evs IH]; intros self; cbn [run].
  - reflexivity.
  - pose proof (dispatch_keeps_service self ev) as Hd.
    destruct (dispatch self ev) as [self1 out1]. cbn [fst] in Hd.
    pose proof (IH self1) as Hr.
    destruct (run self1 evs) as [self2 out2]. cbn [fst] in *.
    congruence.
Qed.

Lemma dispatch_keeps_activity self ev :
  listener_active (fst (dispatch self ev)) = listener_active self
  /\ subscription_active (fst (dispatch self ev)) = subscription_active self.
Proof.
  destruct (dispatch_keeps_sources self ev) as [Hl Hs].
  unfold listener_active, subscription_active. rewrite Hl, Hs.
  split; reflexivity.
Qed.

(** The number of commands of a run: one for each message of a source that
    is active. *)
Lemma run_output_length evs : forall self,
  length (snd (run self evs))
  = length (List.filter
              (fun ev => match ev with
                         | TransformUpdate _ => listener_active self
                         | PoseMessage _ => subscription_active self
                         | FrameRequest _ _ => false
                         end) evs).
Proof.
  induction evs as [| ev evs IH]; intros self; cbn [run List.filter].
  - reflexivity.
  - destruct (dispatch_keeps_activity self ev) as [Hl Hs].
    assert (Hout : length (snd (dispatch self ev))
                   = if match ev with
                        | TransformUpdate _ => listener_active self
                        | PoseMessage _ => subscription_active self
                        | FrameRequest _ _ => false
                        end then 1 else 0).
    { destruct ev as [m | m | req delivered]; cbn.
      - destruct (listener_active self); reflexivity.
      - destruct (subscription_active self); reflexivity.
      - destruct (mav_frame_srv self); reflexivity. }
    destruct (dispatch self ev) as [self1 out1]. cbn [fst snd] in *.
    specialize (IH self1). rewrite Hl, Hs in IH.
    destruct (run self1 evs) as [self2 out2]. cbn [fst snd] in *.
    rewrite length_app, Hout, IH.
    destruct ev as [m | m | req delivered];
      [destruct (listener_active self)
      | destruct (subscription_active self) | ]; reflexivity.
Qed.

(** X13. One message in, one command out, never batched and never
    dropped: after initialization a run emits exactly one command for each
    pose message when "tf/listen" is unset, and exactly one for each
    transform update when it is set; frame requests and messages for the
    other source emit none. *)
Theorem one_command_per_message params indeterminate evs :
  length (snd (run (initialize (SetpointPositionPlugin_new params indeterminate))
                 evs))
  = length (List.filter
              (fun ev => match ev with
                         | TransformUpdate _ =>
                             NodeHandle.param_bool params "tf/listen" false
                         | PoseMessage _ =>
                             negb (NodeHandle.param_bool params "tf/listen" false)
                         | FrameRequest _ _ => false
                         end) evs).
Proof.
  rewrite run_output_length.
  destruct (initialize_sources params indeterminate) as [Hl Hs].
  rewrite Hl, Hs. reflexivity.
Qed.

(** X14. The pose callbacks only read the plugin: a run without frame
    requests leaves the plugin as it was, and every command it emits carries
    the plugin's active frame. *)
Theorem messages_leave_plugin_unchanged self evs :
  forallb (fun ev => match ev with
                     | FrameRequest _ _ => false
                     | _ => true
                     end) evs = true ->
  fst (run self evs) = self
  /\ Forall (fun c => frame c = mav_frame self) (snd (run self evs)).
Proof.
  induction evs as [| ev evs IH]; intros Hno; cbn [run].
  - split; [reflexivity | constructor].
  - cbn [forallb] in Hno. apply andb_prop in Hno. destruct Hno as [Hev Hno].
    destruct (IH Hno) as [IHs IHc].
    destruct ev as [m | m | req delivered]; [| | discriminate Hev];
      cbn [dispatch].
    + destruct (listener_active self);
        destruct (run self evs) as [self2 out2]; cbn [fst snd] in *;
        split; try exact IHs; try exact IHc.
      constructor; [reflexivity | exact IHc].
    + destruct (subscription_active self);
        destruct (run self evs) as [self2 out2]; cbn [fst snd] in *;
        split; try exact IHs; try exact IHc.
      constructor; [reflexivity | exact IHc].
Qed.

(** X15. After initialization a frame request is served wherever it comes
    in a run: it emits no command, it makes its id the active frame, and
    every command of the messages that follow it, up to the next request,
    carries that id, while the commands before it are not affected. *)
Theorem frame_request_served_in_any_run
    params indeterminate evs req delivered evs' :
  mav_frame
    (fst (run (initialize (SetpointPositionPlugin_new params indeterminate))
            (evs ++ [FrameRequest req delivered])))
  = req_mav_frame req
  /\ snd (run (initialize (SetpointPositionPlugin_new params indeterminate))
            (evs ++ [FrameRequest req delivered]))
     = snd (run (initialize (SetpointPositionPlugin_new params indeterminate))
              evs)
  /\ (forallb (fun ev => match ev with
                         | FrameRequest _ _ => false
                         | _ => true
                         end) evs' = true ->
      snd (run (initialize (SetpointPositionPlugin_new params indeterminate))
             (evs ++ FrameRequest req delivered :: evs'))
      = snd (run (initialize (SetpointPositionPlugin_new params indeterminate))
               evs)
        ++ snd (run
                  (fst (run (initialize
                               (SetpointPositionPlugin_new params indeterminate))
                          (evs ++ [FrameRequest req delivered])))
                  evs')
      /\ Forall (fun c => frame c = req_mav_frame req)
           (snd (run
                   (fst (run (initialize
                                (SetpointPositionPlugin_new params indeterminate))
                           (evs ++ [FrameRequest req delivered])))
                   evs'))).
Proof.
  set (self0 := initialize (SetpointPositionPlugin_new params indeterminate)).
  assert (Hsrv : mav_frame_srv (fst (run self0 evs)) = Some "mav_frame"%string)
    by (rewrite run_keeps_service; reflexivity).
  assert (Hone : run (fst (run self0 evs)) [FrameRequest req delivered]
                 = (fst (fst (set_mav_frame_cb (fst (run self0 evs))
                                req delivered)), [])).
  { cbn [run dispatch]. rewrite Hsrv. reflexivity. }
  assert (Hf : mav_frame (fst (run self0 (evs ++ [FrameRequest req delivered])))
               = req_mav_frame req).
  { rewrite run_app. cbn [fst]. rewrite Hone. reflexivity. }
  split; [exact Hf |].
  split.
  { rewrite run_app. cbn [snd]. rewrite Hone. cbn [snd].
    apply app_nil_r. }
  intros Hno. split.
  - replace (evs ++ FrameRequest req delivered :: evs')
      with ((evs ++ [FrameRequest req delivered]) ++ evs')
      by (rewrite <- app_assoc; reflexivity).
    rewrite (run_app (evs ++ [FrameRequest req delivered])). cbn [snd].
    f_equal.
    rewrite run_app. cbn [snd]. rewrite Hone. cbn [snd]. apply app_nil_r.
  - destruct (messages_leave_plugin_unchanged
                (fst (run self0 (evs ++ [FrameRequest req delivered])))
                evs' Hno) as [_ Hall].
    rewrite Hf in Hall. exact Hall.
Qed.

End Deliveries.

Lemma messages_leave_plugin_unchanged_witness :
  forallb (fun ev => match ev with
                     | FrameRequest _ _ => false
                     | _ => true
                     end)
    [TransformUpdate (Sample.update_at 1);
     PoseMessage {| ps_header := {| stamp := {| sec := 2; nsec := 0 |} |};
                    pose := {| pose_position := translation Sample.pose123;
                               pose_orientation := rotation Sample.pose123 |} |}]
  = true
  /\ fst (@run Sample.orientation Sample.strings (Sample.plugin ∅)
            [TransformUpdate (Sample.update_at 1);
             PoseMessage
               {| ps_header := {| stamp := {| sec := 2; nsec := 0 |} |};
                  pose := {| pose_position := translation Sample.pose123;
                             pose_orientation := rotation Sample.pose123 |} |}])
     = Sample.plugin ∅.
Proof.
  split; [reflexivity |].
  exact (proj1 (@messages_leave_plugin_unchanged
                  Sample.orientation Sample.strings (Sample.plugin ∅)
                  [TransformUpdate (Sample.update_at 1);
                   PoseMessage
                     {| ps_header := {| stamp := {| sec := 2; nsec := 0 |} |};
                        pose := {| pose_position := translation Sample.pose123;
                                   pose_orientation :=
                                     rotation Sample.pose123 |} |}]
                  eq_refl)).
Defined.

Lemma frame_request_served_in_any_run_witness :
  forallb (fun ev => match ev with
                     | FrameRequest _ _ => false
                     | _ => true
                     end)
    [PoseMessage {| ps_header := {| stamp := {| sec := 2; nsec := 0 |} |};
                    pose := {| pose_position := translation Sample.pose123;
                               pose_orientation := rotation Sample.pose123 |} |}]
  = true
  /\ Forall (fun c => frame c = MAV_FRAME.BODY_NED)
       (snd (@run Sample.orientation Sample.strings
               (fst (@run Sample.orientation Sample.strings
                       (@initialize Sample.strings
                          (SetpointPositionPlugin_new ∅ 0%N))
                       ([TransformUpdate (Sample.update_at 1)]
                          ++ [FrameRequest
                                {| req_mav_frame := MAV_FRAME.BODY_NED |}
                                false])))
               [PoseMessage
                  {| ps_header := {| stamp := {| sec := 2; nsec := 0 |} |};
                     pose := {| pose_position := translation Sample.pose123;
                                pose_orientation :=
                                  rotation Sample.pose123 |} |}])).
Proof.
  split; [reflexivity |].
  exact (proj2 (proj2 (proj2
    (@frame_request_served_in_any_run Sample.orientation Sample.strings
       ∅ 0%N [TransformUpdate (Sample.update_at 1)]
       {| req_mav_frame := MAV_FRAME.BODY_NED |} false
       [PoseMessage
          {| ps_header := {| stamp := {| sec := 2; nsec := 0 |} |};
             pose := {| pose_position := translation Sample.pose123;
                        pose_orientation := rotation Sample.pose123 |} |}]))
    eq_refl)).
Defined.
